(** * AI4AgroFuture: the refresh button script [static/app.js]

    A shallow embedding of the page script and the properties of its
    click handler.  The script has two parts:

    - the [DOMContentLoaded] listener, which looks the button up by its
      identifier and registers a click listener on it when it exists;
    - the asynchronous click listener, which disables the button, posts
      to the refresh endpoint, inspects the parsed answer, reloads the
      page and restores the button in its [finally] block.

    Browser facilities ([fetch], [Response.json], [alert],
    [console.error], [location.reload]) are the environment: what they
    answer is an input of the model, what the script asks of them is
    recorded in a log. *)

From Stdlib Require Import ZArith SpecFloat.
From stdpp Require Import gmap strings list.

Local Open Scope string_scope.
Local Open Scope list_scope.

(** ** JavaScript values *)

Module Js.

(** A number is an IEEE 754 binary64 value.  [SFeqb] is the IEEE
    comparison that [===] performs on two numbers: both zeros are
    equal, NaN is equal to nothing. *)
Definition number := spec_float.

Definition zero : number := S754_zero false.

Definition is_nan (x : number) : bool :=
  match x with
  | S754_nan => true
  | _ => false
  end.

(** The values the script can meet: what [JSON.parse] builds, plus
    [undefined], which a property read gives for a missing property. *)
#[warnings="-register-all"] Inductive value :=
| VUndefined
| VNull
| VBool (b : bool)
| VNum (x : number)
| VStr (s : string)
| VArr (items : list value)
| VObj (props : gmap string value).

(** A thrown value: the name of the error and its message. *)
Record exn := Exn { exn_name : string; exn_message : string }.

(** How an evaluation, or a promise, ends. *)
Inductive outcome (A : Type) :=
| Return (a : A)
| Throw (e : exn).
Arguments Return {A} a.
Arguments Throw {A} e.

(** [ToBoolean]. *)
Definition to_boolean (v : value) : bool :=
  match v with
  | VUndefined | VNull => false
  | VBool b => b
  | VNum x => negb (SFeqb x zero || is_nan x)
  | VStr s => negb (String.eqb s "")
  | VArr _ | VObj _ => true
  end.

(** [typeof v]. *)
Definition typeof (v : value) : string :=
  match v with
  | VUndefined => "undefined"
  | VNull => "object"
  | VBool _ => "boolean"
  | VNum _ => "number"
  | VStr _ => "string"
  | VArr _ | VObj _ => "object"
  end.

(** [v === n] for a number [n]: false unless [v] is a number. *)
Definition strict_eq_number (v : value) (n : number) : bool :=
  match v with
  | VNum x => SFeqb x n
  | _ => false
  end.

(** [v.qtd].  Reading a property of [null] or [undefined] throws a
    TypeError.  An object answers with its own property.  A boolean, a
    number and a string are boxed, and they, like an array, answer from
    their prototype or from their indices and [length]: [qtd] is none of
    these, so the read gives [undefined]. *)
Definition get_qtd (v : value) : outcome value :=
  match v with
  | VUndefined | VNull =>
      Throw (Exn "TypeError" "Cannot read properties of null or undefined")
  | VObj props =>
      match props !! "qtd" with
      | Some q => Return q
      | None => Return VUndefined
      end
  | VBool _ | VNum _ | VStr _ | VArr _ => Return VUndefined
  end.

End Js.

(** ** Evaluation with a state and exceptions *)

Module Eval.
Import Js.

(** A computation over a state [S]: it ends normally or by a throw,
    and leaves a state either way. *)
Definition js (S A : Type) : Type := S -> outcome A * S.

Definition ret {S A} (a : A) : js S A := fun s => (Return a, s).

Definition throw {S A} (e : exn) : js S A := fun s => (Throw e, s).

Definition bind {S A B} (m : js S A) (k : A -> js S B) : js S B :=
  fun s =>
    match m s with
    | (Return a, s') => k a s'
    | (Throw e, s') => (Throw e, s')
    end.

(** An evaluation that touches no state. *)
Definition lift {S A} (r : outcome A) : js S A := fun s => (r, s).

(** [try { body } catch (e) { handler } finally { final }]: the
    handler runs when the body throws, [final] runs in every case, and
    the statement ends as the body or the handler did unless [final]
    itself throws. *)
Definition try_catch_finally {S A}
    (body : js S A) (handler : exn -> js S A) (final : js S unit) : js S A :=
  fun s =>
    let '(r, s1) :=
      match body s with
      | (Throw e, s') => handler e s'
      | (Return a, s') => (Return a, s')
      end in
    match final s1 with
    | (Return _, s2) => (r, s2)
    | (Throw e, s2) => (Throw e, s2)
    end.

End Eval.

Declare Scope js_scope.
Delimit Scope js_scope with js.
Notation "x <- m ;; k" := (Eval.bind m (fun x => k))
  (at level 100, m at next level, right associativity) : js_scope.
Notation "m ;; k" := (Eval.bind m (fun _ => k))
  (at level 100, k at level 200, right associativity) : js_scope.

(** ** The browser as seen by the script *)

Module Browser.
Import Js.

(** The button: the two properties the script reads and writes. *)
Record element := Element { disabled : bool; textContent : string }.

(** The second argument of [fetch]; a missing field is [None] or the
    empty list. *)
Record request_init := RequestInit {
  method : option string;
  body : option string;
  headers : list (string * string)
}.

(** What [fetch] resolves to: the status line and how the promise of
    [resp.json()] settles. *)
Record response := Response { status : Z; json : outcome value }.

(** [resp.ok]: the status is in 200..299.  The script reads neither
    this nor [resp.status]; it is here to state what follows from that. *)
Definition ok (r : response) : bool :=
  (200 <=? status r)%Z && (status r <? 300)%Z.

(** What the handler does to the world, in the order it does it. *)
Inductive event :=
| SetDisabled (b : bool)
| SetTextContent (s : string)
| Fetch (url : string) (init : request_init)
| ConsoleError (e : exn)
| Alert (msg : string)
| Reload.

(** The state of one run of the handler: the button and the log. *)
Record state := State { btn : element; log : list event }.

(** The environment of one click: how the network answers a request,
    and what the rest of the page does to the button while the handler
    is suspended at each of its two [await]s. *)
Record env := Env {
  net : string -> request_init -> outcome response;
  while_fetching : element -> element;
  while_parsing : element -> element
}.

Definition emit (ev : event) : Eval.js state unit :=
  fun s => (Return tt, {| btn := btn s; log := log s ++ [ev] |}).

Definition get_textContent : Eval.js state string :=
  fun s => (Return (textContent (btn s)), s).

Definition set_disabled (b : bool) : Eval.js state unit :=
  fun s => (Return tt,
            {| btn := {| disabled := b; textContent := textContent (btn s) |};
               log := log s ++ [SetDisabled b] |}).

Definition set_textContent (t : string) : Eval.js state unit :=
  fun s => (Return tt,
            {| btn := {| disabled := disabled (btn s); textContent := t |};
               log := log s ++ [SetTextContent t] |}).

(** [fetch(url, init)] sends the request and returns a promise, here
    the way it will settle. *)
Definition fetch (E : env) (url : string) (init : request_init)
  : Eval.js state (outcome response) :=
  fun s => (Return (net E url init),
            {| btn := btn s; log := log s ++ [Fetch url init] |}).

(** [await p]: the handler is suspended, the page runs, and the
    handler resumes with the value of the promise or its rejection. *)
Definition await {A} (page : element -> element) (p : outcome A)
  : Eval.js state A :=
  fun s => (p, {| btn := page (btn s); log := log s |}).

Definition alert (msg : string) : Eval.js state unit := emit (Alert msg).
Definition console_error (e : exn) : Eval.js state unit := emit (ConsoleError e).
Definition location_reload : Eval.js state unit := emit Reload.

End Browser.

(** ** The click handler *)

Module Refresh.
Import Js Browser.
Local Open Scope js_scope.

Definition endpoint : string := "/api/refresh_sinais".
Definition post : request_init :=
  {| method := Some "POST"; body := None; headers := [] |}.

Definition in_progress : string := "Atualizando...".
Definition no_signals_msg : string :=
  "Não foi possível coletar novos sinais agora. Verifique sua internet ou tente novamente em alguns minutos.".
Definition failure_msg : string := "Falha ao atualizar sinais.".

(** [data && typeof data.qtd === "number" && data.qtd === 0], as the
    [if] sees it.  [&&] gives its left operand when that is falsy and
    its right operand otherwise, so the test holds exactly when the
    three operands, evaluated from left to right until one is falsy,
    are all truthy. *)
Definition no_new_signals (data : value) : Eval.js state bool :=
  if to_boolean data then
    q <- Eval.lift (get_qtd data) ;;
    if String.eqb (typeof q) "number" then
      q' <- Eval.lift (get_qtd data) ;;
      Eval.ret (strict_eq_number q' zero)
    else Eval.ret false
  else Eval.ret false.

(** The listener registered on the button. *)
Definition on_click (E : env) : Eval.js state unit :=
  old <- get_textContent ;;
  set_disabled true ;;
  set_textContent in_progress ;;
  Eval.try_catch_finally
    (p <- fetch E endpoint post ;;
     resp <- await (while_fetching E) p ;;
     data <- await (while_parsing E) (json resp) ;;
     warn <- no_new_signals data ;;
     (if warn then alert no_signals_msg else Eval.ret tt) ;;
     location_reload)
    (fun e =>
       console_error e ;;
       alert failure_msg)
    (set_disabled false ;;
     set_textContent old).

(** One click on the button [b]: the handler runs to settlement from
    an empty log. *)
Definition click (E : env) (b : element) : outcome unit * state :=
  on_click E {| btn := b; log := [] |}.

Definition settled (E : env) (b : element) : outcome unit := fst (click E b).
Definition button_after (E : env) (b : element) : element := btn (snd (click E b)).
Definition trace (E : env) (b : element) : list event := log (snd (click E b)).

End Refresh.

(** ** Page set-up *)

Module Page.
Import Js.
Local Open Scope js_scope.

(** The functions the script passes as listeners: there is one, the
    asynchronous click handler [Refresh.on_click]. *)
Inductive callback := RefreshOnClick.

Record listener := Listener {
  target : string;
  event_type : string;
  callback_of : callback
}.

(** The document: its elements by identifier and the listeners that
    scripts have registered on them. *)
Record document := Document {
  elements : gmap string Browser.element;
  listeners : list listener
}.

(** A reference to an element, or [null]. *)
Definition node := option string.

Definition getElementById (id : string) : Eval.js document node :=
  fun d =>
    match elements d !! id with
    | Some _ => (Return (Some id), d)
    | None => (Return None, d)
    end.

(** [ToBoolean] of a reference: only [null] is falsy. *)
Definition node_to_boolean (n : node) : bool :=
  match n with
  | Some _ => true
  | None => false
  end.

(** [n.addEventListener(type, f)]; on [null] the property read
    throws. *)
Definition addEventListener (n : node) (type : string) (f : callback)
  : Eval.js document unit :=
  fun d =>
    match n with
    | None =>
        (Throw (Exn "TypeError" "Cannot read properties of null"), d)
    | Some id =>
        (Return tt,
         {| elements := elements d;
            listeners := listeners d ++ [Listener id type f] |})
    end.

(** The [DOMContentLoaded] listener of the script. *)
Definition on_DOMContentLoaded : Eval.js document unit :=
  btn <- getElementById "btn-refresh" ;;
  if negb (node_to_boolean btn) then Eval.ret tt
  else addEventListener btn "click" RefreshOnClick.

End Page.

(** ** Reading a log *)

Module Log.
Import Js Browser.

Definition alerts (l : list event) : list string :=
  omap (fun ev => match ev with Alert m => Some m | _ => None end) l.

Definition errors_logged (l : list event) : list exn :=
  omap (fun ev => match ev with ConsoleError e => Some e | _ => None end) l.

Definition requests (l : list event) : list (string * request_init) :=
  omap (fun ev => match ev with Fetch u i => Some (u, i) | _ => None end) l.

Definition reloads (l : list event) : nat :=
  length (omap (fun ev => match ev with Reload => Some tt | _ => None end) l).

End Log.

(** ** What the specification calls the answer *)

Module Answer.
Import Js Browser.

(** How the two awaited promises settle together: the parsed body, or
    the rejection of the request or of the parse. *)
Definition received (E : env) : outcome value :=
  match net E Refresh.endpoint Refresh.post with
  | Return resp => json resp
  | Throw e => Throw e
  end.

(** The value is an object that has a numeric field [qtd]. *)
Definition numeric_qtd (data : value) : bool :=
  match data with
  | VObj props =>
      match props !! "qtd" with
      | Some (VNum _) => true
      | _ => false
      end
  | _ => false
  end.

(** The value is an object whose numeric field [qtd] is zero. *)
Definition zero_qtd (data : value) : bool :=
  match data with
  | VObj props =>
      match props !! "qtd" with
      | Some (VNum x) => SFeqb x zero
      | _ => false
      end
  | _ => false
  end.

End Answer.

(** ** The shape of a run *)

Module Shape.
Import Js Browser Refresh Answer.

(** The writes and the request that open every run. *)
Definition opening : list event :=
  [SetDisabled true; SetTextContent in_progress; Fetch endpoint post].

(** The writes of the [finally] block. *)
Definition closing (b : element) : list event :=
  [SetDisabled false; SetTextContent (textContent b)].

(** What happens between the two, by the way the answer came. *)
Definition middle (r : outcome value) : list event :=
  match r with
  | Throw e => [ConsoleError e; Alert failure_msg]
  | Return data =>
      (if zero_qtd data then [Alert no_signals_msg] else []) ++ [Reload]
  end.

End Shape.

(** ** Sample pages, buttons and networks *)

Module Samples.
Import Js Browser.

Definition idle : element :=
  {| disabled := false; textContent := "Atualizar sinais" |}.

(** Another script that rewrites the button while the handler waits. *)
Definition meddle (b : element) : element :=
  {| disabled := negb (disabled b); textContent := String.append (textContent b) "?" |}.

Definition failed_to_fetch : exn := Exn "TypeError" "Failed to fetch".
Definition bad_json : exn := Exn "SyntaxError" "Unexpected token < in JSON".

Definition offline : env :=
  {| net := fun _ _ => Throw failed_to_fetch;
     while_fetching := meddle;
     while_parsing := meddle |}.

Definition reply (st : Z) (parsed : outcome value) : response :=
  {| status := st; json := parsed |}.

(** A server that answers every request with the same status and body. *)
Definition answers (st : Z) (parsed : outcome value) : env :=
  {| net := fun _ _ => Return (reply st parsed);
     while_fetching := meddle;
     while_parsing := fun b => b |}.

Definition five : number := S754_finite false 5 0.
Definition minus_zero : number := S754_zero true.

Definition qtd_is (q : value) : value := VObj {[ "qtd" := q ]}.

(** [200 {"qtd": -0}], [200 {"qtd": 5}], [200 null]. *)
Definition nothing_new : env := answers 200 (Return (qtd_is (VNum minus_zero))).
Definition five_new : env := answers 200 (Return (qtd_is (VNum five))).
Definition null_answer : env := answers 200 (Return VNull).

(** [500 {"qtd": 5}], and [500] with a body that is not JSON. *)
Definition error_with_five : env := answers 500 (Return (qtd_is (VNum five))).
Definition error_page : env := answers 500 (Throw bad_json).

(** [500 {"qtd": -0}], on a page that meddles at other times. *)
Definition error_with_nothing_new : env :=
  {| net := fun _ _ => Return (reply 500 (Return (qtd_is (VNum minus_zero))));
     while_fetching := fun b => b;
     while_parsing := meddle |}.

Definition empty_page : Page.document :=
  {| Page.elements := ∅; Page.listeners := [] |}.

Definition page_with_button : Page.document :=
  {| Page.elements := {[ "btn-refresh" := idle ]}; Page.listeners := [] |}.

End Samples.

(** ** The handler between its awaits *)

Module Steps.
Import Js Browser Refresh.
Local Open Scope js_scope.

(** A run of the handler stopped at one of its two [await]s: the label
    it captured in [old] and the promise it waits for. *)
Inductive suspended :=
| AtFetch (old : string) (p : outcome response)
| AtJson (old : string) (p : outcome value).

Definition captured (k : suspended) : string :=
  match k with
  | AtFetch old _ | AtJson old _ => old
  end.

(** How what the run still waits for will come out: the parsed body,
    or the rejection of the request or of the parse. *)
Definition answer_of (k : suspended) : outcome value :=
  match k with
  | AtFetch _ (Return resp) => json resp
  | AtFetch _ (Throw e) => Throw e
  | AtJson _ p => p
  end.

(** The [catch] block and the [finally] block of the handler. *)
Definition catch_block (e : exn) : Eval.js state unit :=
  console_error e ;;
  alert failure_msg.

Definition finally_block (old : string) : Eval.js state unit :=
  set_disabled false ;;
  set_textContent old.

(** From the click to the first [await]: the label is captured, the
    button is disabled and relabelled, the request is sent. *)
Definition begin (E : env) : Eval.js state suspended :=
  old <- get_textContent ;;
  set_disabled true ;;
  set_textContent in_progress ;;
  p <- fetch E endpoint post ;;
  Eval.ret (AtFetch old p).

(** From one [await] to the next one, or to the end of the handler
    ([None]).  A rejected promise is thrown at the [await], inside the
    [try]; a fulfilled [fetch] goes on to [resp.json()] and waits again. *)
Definition resume (k : suspended) : Eval.js state (option suspended) :=
  match k with
  | AtFetch old (Return resp) => Eval.ret (Some (AtJson old (json resp)))
  | AtFetch old (Throw e) =>
      Eval.try_catch_finally (Eval.throw e) catch_block (finally_block old) ;;
      Eval.ret None
  | AtJson old p =>
      Eval.try_catch_finally
        (data <- Eval.lift p ;;
         warn <- no_new_signals data ;;
         (if warn then alert no_signals_msg else Eval.ret tt) ;;
         location_reload)
        catch_block
        (finally_block old) ;;
      Eval.ret None
  end.

(** The rest of the page running while every handler is suspended. *)
Definition page_runs (f : element -> element) : Eval.js state unit :=
  await f (Return tt).

(** One run, segment by segment, with the page running at each
    [await] that is reached. *)
Definition in_steps (E : env) : Eval.js state unit :=
  k <- begin E ;;
  page_runs (while_fetching E) ;;
  r <- resume k ;;
  match r with
  | None => Eval.ret tt
  | Some k' =>
      page_runs (while_parsing E) ;;
      resume k' ;;
      Eval.ret tt
  end.

(** A suspended run taken to its end with nothing else in between. *)
Definition settle (k : suspended) : Eval.js state unit :=
  r <- resume k ;;
  match r with
  | None => Eval.ret tt
  | Some k' => resume k' ;; Eval.ret tt
  end.

End Steps.

(** ** Two clicks in flight *)

Module Overlap.
Import Js Browser Refresh Steps.
Local Open Scope js_scope.


Definition second_settles_first (E1 E2 : env) : Eval.js state unit :=
  k1 <- begin E1 ;;
  k2 <- begin E2 ;;
  settle k2 ;;
  settle k1.

Definition from_button (m : Eval.js state unit) (b : element)
  : outcome unit * state :=
  m {| btn := b; log := [] |}.

End Overlap.

(** ** Writes to the button in a log *)

Module Writes.
Import Browser.



End Writes.

(** ** More samples *)

Module Scenes.
Import Js Browser.

(** The sample button, found disabled. *)
Definition greyed : element :=
  {| disabled := true; textContent := "Atualizar sinais" |}.

(** [{"qtd": 5, "fonte": "b3", "ok": true}] *)
Definition chatty_five : value :=
  VObj {[ "qtd" := VNum Samples.five;
          "fonte" := VStr "b3";
          "ok" := VBool true ]}.

Definition chatty_five_new : env := Samples.answers 200 (Return chatty_five).

End Scenes.

(** ** Inside a segment *)

Module Segments.
Import Js Browser Refresh Steps.
Local Open Scope js_scope.



End Segments.

(** ** Properties *)

Import Js Browser Refresh Log Answer Shape.

(** *** The guard and the run *)

(** The guard of the alert never throws, leaves the state alone and
    holds exactly for an object with a numeric [qtd] equal to zero. *)
Lemma no_new_signals_zero_qtd (data : value) (s : state) :
  no_new_signals data s = (Return (zero_qtd data), s).
Proof.
  unfold no_new_signals.
  destruct data as [| |b|x|t|items|props]; cbn [zero_qtd to_boolean].
  - reflexivity.
  - reflexivity.
  - destruct b; reflexivity.
  - destruct (negb (SFeqb x zero || is_nan x)); reflexivity.
  - destruct (negb (String.eqb t "")); reflexivity.
  - reflexivity.
  - unfold Eval.bind, Eval.lift, Eval.ret; cbn [get_qtd].
    destruct (props !! "qtd") as [q|]; [|reflexivity].
    destruct q; reflexivity.
Qed.

(** Without the first operand of the guard, a [null] answer would make
    the property read throw. *)
Example unguarded_read_throws : exists e, get_qtd VNull = Throw e.
Proof. eexists; reflexivity. Qed.

Lemma zero_qtd_numeric (data : value) :
  zero_qtd data = true -> numeric_qtd data = true.
Proof.
  destruct data as [| | | | | |props]; cbn; try discriminate.
  destruct (props !! "qtd") as [[]|]; cbn; congruence.
Qed.

Lemma not_numeric_not_zero (data : value) :
  numeric_qtd data = false -> zero_qtd data = false.
Proof.
  intros H. destruct (zero_qtd data) eqn:Hz; [|reflexivity].
  apply zero_qtd_numeric in Hz. congruence.
Qed.

(** One click, whatever the environment: the handler settles
    normally, the button is as the [finally] block leaves it, and the
    log is the opening, the middle for the answer, and the closing. *)
Lemma click_runs (E : env) (b : element) :
  click E b =
    (Return tt,
     {| btn := {| disabled := false; textContent := textContent b |};
        log := opening ++ middle (received E) ++ closing b |}).
Proof.
  unfold click, on_click, received.
  unfold Eval.bind at 1 2 3; cbn.
  unfold Eval.try_catch_finally, Eval.bind at 1; cbn.
  destruct (net E endpoint post) as [resp|e]; cbn.
  - destruct (json resp) as [data|e]; cbn.
    + unfold Eval.bind at 1. rewrite no_new_signals_zero_qtd.
      destruct (zero_qtd data); reflexivity.
    + reflexivity.
  - reflexivity.
Qed.

Lemma trace_shape (E : env) (b : element) :
  trace E b = opening ++ middle (received E) ++ closing b.
Proof. unfold trace. rewrite click_runs. reflexivity. Qed.

Lemma received_rejected (E : env) (e : exn) :
  net E endpoint post = Throw e -> received E = Throw e.
Proof. unfold received. intros ->. reflexivity. Qed.

Lemma received_response (E : env) (resp : response) :
  net E endpoint post = Return resp -> received E = json resp.
Proof. unfold received. intros ->. reflexivity. Qed.

(** *** Runs on the samples *)

Example offline_trace :
  trace Samples.offline Samples.idle =
    [SetDisabled true; SetTextContent "Atualizando...";
     Fetch "/api/refresh_sinais" (RequestInit (Some "POST") None []);
     ConsoleError Samples.failed_to_fetch;
     Alert "Falha ao atualizar sinais.";
     SetDisabled false; SetTextContent "Atualizar sinais"].
Proof. reflexivity. Qed.

Example zero_trace :
  trace (Samples.answers 200 (Return (Samples.qtd_is (VNum zero)))) Samples.idle =
    [SetDisabled true; SetTextContent "Atualizando...";
     Fetch "/api/refresh_sinais" (RequestInit (Some "POST") None []);
     Alert no_signals_msg; Reload;
     SetDisabled false; SetTextContent "Atualizar sinais"].
Proof. vm_compute. reflexivity. Qed.

Example five_trace :
  trace (Samples.answers 200 (Return (Samples.qtd_is (VNum Samples.five)))) Samples.idle =
    [SetDisabled true; SetTextContent "Atualizando...";
     Fetch "/api/refresh_sinais" (RequestInit (Some "POST") None []);
     Reload;
     SetDisabled false; SetTextContent "Atualizar sinais"].
Proof. vm_compute. reflexivity. Qed.

Example button_present_registers :
  Page.on_DOMContentLoaded Samples.page_with_button =
    (Return tt,
     {| Page.elements := {[ "btn-refresh" := Samples.idle ]};
        Page.listeners := [Page.Listener "btn-refresh" "click" Page.RefreshOnClick] |}).
Proof. reflexivity. Qed.

(** *** The button after a click *)

Section Click.
Context (E : env) (b : element).

(** C1.  Whatever the network answers and whatever the page does
    to the button while the handler waits, the handler settles, and
    when it has settled the button is enabled and carries the label it
    had when the click arrived. *)
Theorem button_restored_after_click :
  settled E b = Return tt /\
  disabled (button_after E b) = false /\
  textContent (button_after E b) = textContent b.
Proof.
  unfold settled, button_after. rewrite click_runs. cbn. auto.
Qed.


(** C3, as the script has it.  The page is reloaded once when the
    request and the parse both succeeded, whatever the answer says of
    [qtd], and not at all when either failed. *)
Theorem reload_follows_the_answer :
  reloads (trace E b) =
    match received E with
    | Return _ => 1
    | Throw _ => 0
    end.
Proof.
  rewrite trace_shape.
  destruct (received E) as [data|e]; cbn.
  - destruct (zero_qtd data); reflexivity.
  - reflexivity.
Qed.

(** C2.  When the request is rejected, or the body of the answer
    does not parse, the failure message is the only alert of the run,
    the error caught is the one written to the console, the page is not
    reloaded, and the handler still settles normally. *)
Theorem failure_alerts_once_without_reload (e : exn) :
  net E endpoint post = Throw e \/
  (exists resp, net E endpoint post = Return resp /\ json resp = Throw e) ->
  alerts (trace E b) = [failure_msg] /\
  errors_logged (trace E b) = [e] /\
  reloads (trace E b) = 0 /\
  settled E b = Return tt.
Proof.
  intros H.
  assert (Hr : received E = Throw e).
  { destruct H as [H|(resp & H & Hj)].
    - by apply received_rejected.
    - by rewrite (received_response _ _ H). }
  rewrite trace_shape, Hr. unfold settled. rewrite click_runs.
  cbn. auto.
Qed.

(** C4, as the script has it.  An answer whose status is outside
    200..299 is treated by its body alone: when the body does not parse
    the run takes the failure branch, and when it parses the run takes
    the success path, with the [qtd] test and the reload, as for any
    other status. *)
Theorem status_not_ok_follows_body (resp : response) :
  net E endpoint post = Return resp ->
  ok resp = false ->
  match json resp with
  | Throw e =>
      alerts (trace E b) = [failure_msg] /\
      errors_logged (trace E b) = [e] /\
      reloads (trace E b) = 0
  | Return data =>
      alerts (trace E b) = (if zero_qtd data then [no_signals_msg] else []) /\
      errors_logged (trace E b) = [] /\
      reloads (trace E b) = 1
  end.
Proof.
  intros H _. rewrite trace_shape, (received_response _ _ H).
  destruct (json resp) as [data|e]; cbn.
  - destruct (zero_qtd data); cbn; auto.
  - auto.
Qed.

(** C5.  When the answer parses to an object whose [qtd] is a
    number equal to zero, the no-new-signals message is the only alert
    of the run, and it comes right before the one reload. *)
Theorem zero_qtd_alerts_before_reload
    (resp : response) (props : gmap string value) (x : number) :
  net E endpoint post = Return resp ->
  json resp = Return (VObj props) ->
  props !! "qtd" = Some (VNum x) ->
  SFeqb x zero = true ->
  alerts (trace E b) = [no_signals_msg] /\
  reloads (trace E b) = 1 /\
  trace E b = opening ++ [Alert no_signals_msg; Reload] ++ closing b.
Proof.
  intros H Hj Hq Hx.
  rewrite trace_shape, (received_response _ _ H), Hj.
  cbn [middle zero_qtd]. rewrite Hq, Hx. cbn. auto.
Qed.

(** C6.  When the answer parses to an object whose [qtd] is
    missing, or is a number other than zero, or is not a number, the
    run shows no alert and goes from the request straight to the
    reload. *)
Theorem other_qtd_reloads_silently
    (resp : response) (props : gmap string value) :
  net E endpoint post = Return resp ->
  json resp = Return (VObj props) ->
  props !! "qtd" = None \/
  (exists x, props !! "qtd" = Some (VNum x) /\ SFeqb x zero = false) \/
  (exists q, props !! "qtd" = Some q /\ forall x, q <> VNum x) ->
  alerts (trace E b) = [] /\
  reloads (trace E b) = 1 /\
  trace E b = opening ++ [Reload] ++ closing b.
Proof.
  intros H Hj Hq.
  assert (Hz : zero_qtd (VObj props) = false).
  { cbn. destruct Hq as [->|[(x & -> & Hx)|(q & -> & Hq)]]; [done|done|].
    destruct q; try reflexivity. by destruct (Hq x). }
  rewrite trace_shape, (received_response _ _ H), Hj.
  cbn [middle]. rewrite Hz. cbn. auto.
Qed.

(** C10.  When the answer parses to anything that is not an
    object with a numeric [qtd] - [null], an array, a string, a number,
    a boolean among them - the guard evaluates to false without
    throwing, nothing is caught or alerted, and the run goes from the
    request straight to the reload. *)
Theorem guarded_answer_reloads_silently (resp : response) (data : value) :
  net E endpoint post = Return resp ->
  json resp = Return data ->
  numeric_qtd data = false ->
  (forall s, no_new_signals data s = (Return false, s)) /\
  settled E b = Return tt /\
  errors_logged (trace E b) = [] /\
  alerts (trace E b) = [] /\
  reloads (trace E b) = 1 /\
  trace E b = opening ++ [Reload] ++ closing b.
Proof.
  intros H Hj Hn. apply not_numeric_not_zero in Hn.
  split.
  { intros s. rewrite no_new_signals_zero_qtd. by rewrite Hn. }
  rewrite trace_shape, (received_response _ _ H), Hj.
  unfold settled. rewrite click_runs.
  cbn [middle]. rewrite Hn. cbn. auto 6.
Qed.

End Click.

(** The kinds of value that C10 names have no numeric [qtd]. *)
Lemma plain_values_have_no_numeric_qtd :
  numeric_qtd VNull = false /\
  (forall items, numeric_qtd (VArr items) = false) /\
  (forall s, numeric_qtd (VStr s) = false) /\
  (forall x, numeric_qtd (VNum x) = false) /\
  (forall c, numeric_qtd (VBool c) = false).
Proof. repeat split. Qed.

(** C9.  Two answers that parse alike make the handler do the same
    things and leave the same button, whatever their status codes and
    whatever else differs between the two environments: the status is
    not read. *)
Theorem status_is_never_read (E1 E2 : env) (b : element) (r1 r2 : response) :
  net E1 endpoint post = Return r1 ->
  net E2 endpoint post = Return r2 ->
  json r1 = json r2 ->
  click E1 b = click E2 b.
Proof.
  intros H1 H2 Hj. rewrite !click_runs.
  by rewrite (received_response _ _ H1), (received_response _ _ H2), Hj.
Qed.

(** *** Page set-up *)

(** C7.  On a page without an element [btn-refresh] the set-up
    returns normally and leaves the document as it found it: no element
    is changed and no listener is added. *)
Theorem missing_button_is_noop (d : Page.document) :
  Page.elements d !! "btn-refresh" = None ->
  Page.on_DOMContentLoaded d = (Return tt, d).
Proof.
  intros H. unfold Page.on_DOMContentLoaded, Eval.bind, Page.getElementById.
  rewrite H. reflexivity.
Qed.

(** *** The theorems at work on the samples *)

(** A rejected request: one failure alert, the error on the console,
    no reload. *)
Lemma failure_alerts_once_without_reload_offline :
  net Samples.offline endpoint post = Throw Samples.failed_to_fetch /\
  alerts (trace Samples.offline Samples.idle) = [failure_msg] /\
  errors_logged (trace Samples.offline Samples.idle) = [Samples.failed_to_fetch] /\
  reloads (trace Samples.offline Samples.idle) = 0 /\
  settled Samples.offline Samples.idle = Return tt.
Proof.
  split; [reflexivity|].
  apply (failure_alerts_once_without_reload
           Samples.offline Samples.idle Samples.failed_to_fetch).
  left. reflexivity.
Defined.

(** The claim that every click reloads the page fails when the request
    is rejected. *)
Lemma reload_skipped_when_offline :
  reloads (trace Samples.offline Samples.idle) = 0 /\
  ~ reloads (trace Samples.offline Samples.idle) = 1.
Proof. split; [reflexivity | discriminate]. Qed.

(** The claim that a status outside 200..299 leads to the failure
    branch fails on a 500 answer whose body is [{"qtd": 5}]: no alert,
    and the page is reloaded. *)
Lemma error_status_still_reloads :
  net Samples.error_with_five endpoint post =
    Return (Samples.reply 500 (Return (Samples.qtd_is (VNum Samples.five)))) /\
  ok (Samples.reply 500 (Return (Samples.qtd_is (VNum Samples.five)))) = false /\
  alerts (trace Samples.error_with_five Samples.idle) = [] /\
  reloads (trace Samples.error_with_five Samples.idle) = 1 /\
  ~ (alerts (trace Samples.error_with_five Samples.idle) = [failure_msg] /\
     reloads (trace Samples.error_with_five Samples.idle) = 0).
Proof.
  repeat split; try (vm_compute; reflexivity).
  intros [H _]. vm_compute in H. discriminate.
Qed.

(** A 500 answer with an unparsable body takes the failure branch. *)
Lemma status_not_ok_follows_body_error_page :
  net Samples.error_page endpoint post =
    Return (Samples.reply 500 (Throw Samples.bad_json)) /\
  ok (Samples.reply 500 (Throw Samples.bad_json)) = false /\
  alerts (trace Samples.error_page Samples.idle) = [failure_msg] /\
  errors_logged (trace Samples.error_page Samples.idle) = [Samples.bad_json] /\
  reloads (trace Samples.error_page Samples.idle) = 0.
Proof.
  split; [reflexivity|]. split; [reflexivity|].
  exact (status_not_ok_follows_body
           Samples.error_page Samples.idle
           (Samples.reply 500 (Throw Samples.bad_json))
           eq_refl eq_refl).
Defined.

(** The answer [{"qtd": -0}]: the alert, then the reload. *)
Lemma zero_qtd_alerts_before_reload_minus_zero :
  SFeqb Samples.minus_zero zero = true /\
  alerts (trace Samples.nothing_new Samples.idle) = [no_signals_msg] /\
  reloads (trace Samples.nothing_new Samples.idle) = 1 /\
  trace Samples.nothing_new Samples.idle =
    opening ++ [Alert no_signals_msg; Reload] ++ closing Samples.idle.
Proof.
  split; [reflexivity|].
  apply (zero_qtd_alerts_before_reload
           Samples.nothing_new Samples.idle
           (Samples.reply 200 (Return (Samples.qtd_is (VNum Samples.minus_zero))))
           {[ "qtd" := VNum Samples.minus_zero ]}
           Samples.minus_zero);
    reflexivity.
Defined.

(** The answer [{"qtd": 5}]: no alert, the reload. *)
Lemma other_qtd_reloads_silently_five :
  SFeqb Samples.five zero = false /\
  alerts (trace Samples.five_new Samples.idle) = [] /\
  reloads (trace Samples.five_new Samples.idle) = 1 /\
  trace Samples.five_new Samples.idle =
    opening ++ [Reload] ++ closing Samples.idle.
Proof.
  split; [reflexivity|].
  apply (other_qtd_reloads_silently
           Samples.five_new Samples.idle
           (Samples.reply 200 (Return (Samples.qtd_is (VNum Samples.five))))
           {[ "qtd" := VNum Samples.five ]});
    [reflexivity | reflexivity |].
  right; left. exists Samples.five. split; reflexivity.
Defined.

(** The answer [null]: the guard is false, nothing is thrown, the page
    is reloaded. *)
Lemma guarded_answer_reloads_silently_null :
  numeric_qtd VNull = false /\
  (forall s, no_new_signals VNull s = (Return false, s)) /\
  settled Samples.null_answer Samples.idle = Return tt /\
  errors_logged (trace Samples.null_answer Samples.idle) = [] /\
  alerts (trace Samples.null_answer Samples.idle) = [] /\
  reloads (trace Samples.null_answer Samples.idle) = 1 /\
  trace Samples.null_answer Samples.idle =
    opening ++ [Reload] ++ closing Samples.idle.
Proof.
  split; [reflexivity|].
  apply (guarded_answer_reloads_silently
           Samples.null_answer Samples.idle
           (Samples.reply 200 (Return VNull)) VNull);
    reflexivity.
Defined.

(** The same body under status 200 and under status 500, with the page
    meddling differently in the two runs. *)
Lemma status_is_never_read_200_500 :
  status (Samples.reply 200 (Return (Samples.qtd_is (VNum Samples.minus_zero)))) <>
  status (Samples.reply 500 (Return (Samples.qtd_is (VNum Samples.minus_zero)))) /\
  click Samples.nothing_new Samples.idle =
  click Samples.error_with_nothing_new Samples.idle.
Proof.
  split; [discriminate|].
  apply (status_is_never_read
           Samples.nothing_new Samples.error_with_nothing_new Samples.idle
           (Samples.reply 200 (Return (Samples.qtd_is (VNum Samples.minus_zero))))
           (Samples.reply 500 (Return (Samples.qtd_is (VNum Samples.minus_zero)))));
    reflexivity.
Defined.

(** A page without the button. *)
Lemma missing_button_is_noop_empty_page :
  Page.elements Samples.empty_page !! "btn-refresh" = None /\
  Page.on_DOMContentLoaded Samples.empty_page = (Return tt, Samples.empty_page).
Proof.
  split; [reflexivity|].
  apply (missing_button_is_noop Samples.empty_page). reflexivity.
Defined.

(** *** Further properties of the set-up *)

(** X1.  On every document the set-up returns normally and changes
    no element; it keeps the listeners that were there and adds one
    click listener on [btn-refresh] when that element exists, and none
    otherwise. *)
Theorem setup_registers_at_most_one_listener (d : Page.document) :
  Page.on_DOMContentLoaded d =
    (Return tt,
     {| Page.elements := Page.elements d;
        Page.listeners :=
          Page.listeners d ++
          match Page.elements d !! "btn-refresh" with
          | Some _ => [Page.Listener "btn-refresh" "click" Page.RefreshOnClick]
          | None => []
          end |}).
Proof.
  unfold Page.on_DOMContentLoaded, Eval.bind, Page.getElementById.
  destruct d as [els ls]; cbn [Page.elements Page.listeners].
  destruct (els !! "btn-refresh") as [el|]; cbn.
  - reflexivity.
  - by rewrite app_nil_r.
Qed.

(** *** Further properties of a run *)

Lemma SFeqb_zero (x : number) :
  SFeqb x zero = true <-> exists sign, x = S754_zero sign.
Proof.
  split.
  - destruct x as [sg|sg| |sg m e]; cbn; try discriminate.
    + eauto.
    + destruct sg; discriminate.
    + destruct sg; discriminate.
  - intros [sg ->]. reflexivity.
Qed.

Lemma zero_qtd_true (data : value) :
  zero_qtd data = true <->
  exists props sign,
    data = VObj props /\ props !! "qtd" = Some (VNum (S754_zero sign)).
Proof.
  split.
  - destruct data as [| | | | | |props]; cbn; try discriminate.
    destruct (props !! "qtd") as [[| | |x| | |]|] eqn:Hq; try discriminate.
    intros Hx. apply SFeqb_zero in Hx as [sg ->]. eauto.
  - intros (props & sg & -> & Hq). cbn. rewrite Hq. reflexivity.
Qed.

Section Run.
Context (E : env) (b : element).

(** X2.  No run shows more than one alert; every run either
    reloads the page once or writes one error to the console, never
    both and never neither; and the failure message is shown exactly in
    the runs that do not reload. *)
Theorem run_reloads_or_reports :
  length (alerts (trace E b)) <= 1 /\
  reloads (trace E b) + length (errors_logged (trace E b)) = 1 /\
  (alerts (trace E b) = [failure_msg] <-> reloads (trace E b) = 0).
Proof.
  rewrite trace_shape.
  destruct (received E) as [data|e]; cbn.
  - destruct (zero_qtd data); cbn; repeat split; try lia; discriminate.
  - repeat split; lia.
Qed.


(** X4.  For an answer that parsed, the run shows the no-new-signals
    message exactly when the answer is an object whose own [qtd] is the
    number [+0] or [-0]; for every other answer it shows no alert. *)
Theorem alert_exactly_for_zero (resp : response) (data : value) :
  net E endpoint post = Return resp ->
  json resp = Return data ->
  (alerts (trace E b) = [no_signals_msg] <->
   exists props sign,
     data = VObj props /\ props !! "qtd" = Some (VNum (S754_zero sign))) /\
  (alerts (trace E b) = [no_signals_msg] \/ alerts (trace E b) = []).
Proof.
  intros H Hj. rewrite trace_shape, (received_response _ _ H), Hj.
  rewrite <- zero_qtd_true. cbn [middle].
  destruct (zero_qtd data); cbn.
  - split; [split; reflexivity | by left].
  - split; [split; discriminate | by right].
Qed.

End Run.

(** X5.  Two answers that are objects with the same [qtd], or
    both without one, give the same run, whatever other fields they
    carry. *)
Theorem other_fields_are_ignored
    (E1 E2 : env) (b : element) (r1 r2 : response)
    (props1 props2 : gmap string value) :
  net E1 endpoint post = Return r1 ->
  json r1 = Return (VObj props1) ->
  net E2 endpoint post = Return r2 ->
  json r2 = Return (VObj props2) ->
  props1 !! "qtd" = props2 !! "qtd" ->
  click E1 b = click E2 b.
Proof.
  intros H1 Hj1 H2 Hj2 Hq. rewrite !click_runs.
  rewrite (received_response _ _ H1), (received_response _ _ H2), Hj1, Hj2.
  cbn [middle zero_qtd]. by rewrite Hq.
Qed.

(** X6.  A run depends on the button only through its label: the
    handler does not look at [btn.disabled], and a click that reaches it
    on a disabled button does what it does on an enabled one. *)
Theorem click_ignores_disabled (E : env) (b b' : element) :
  textContent b = textContent b' ->
  click E b = click E b'.
Proof. intros Hl. rewrite !click_runs. unfold closing. by rewrite Hl. Qed.

(** X7.  After a click whose request or parse failed the page is
    still there, and a second click runs as the first one started: the
    request is sent again, and the button comes back as the first run
    left it, whatever the page did to it during the waits. *)
Theorem retry_after_failure (E1 E2 : env) (b : element) (e : exn) :
  received E1 = Throw e ->
  reloads (trace E1 b) = 0 /\
  trace E2 (button_after E1 b) = trace E2 b /\
  requests (trace E2 (button_after E1 b)) = [(endpoint, post)] /\
  button_after E2 (button_after E1 b) = button_after E1 b.
Proof.
  intros H1.
  unfold button_after. rewrite !trace_shape, !click_runs, H1.
  cbn [snd btn textContent].
  repeat split.
  destruct (received E2) as [data|e2]; cbn; [|reflexivity].
  destruct (zero_qtd data); reflexivity.
Qed.

(** *** The run, segment by segment *)

Import Steps.

Ltac unfold_steps :=
  cbv [on_click in_steps begin resume settle page_runs catch_block finally_block
       Eval.bind Eval.ret Eval.throw Eval.lift Eval.try_catch_finally
       fetch await get_textContent set_disabled set_textContent
       alert console_error location_reload emit
       btn log disabled textContent captured].


(** A run starts the same way whatever the network will answer. *)
Lemma begin_runs (E : env) (s : state) :
  begin E s =
    (Return (AtFetch (textContent (btn s)) (net E endpoint post)),
     {| btn := {| disabled := true; textContent := in_progress |};
        log := log s ++ opening |}).
Proof.
  unfold_steps. rewrite <- !app_assoc. reflexivity.
Qed.

(** A suspended run, taken to its end, does what its answer calls for
    and leaves the button enabled with the label that the run captured. *)
Lemma settle_runs (k : suspended) (s : state) :
  settle k s =
    (Return tt,
     {| btn := {| disabled := false; textContent := captured k |};
        log := log s ++ middle (answer_of k) ++
               [SetDisabled false; SetTextContent (captured k)] |}).
Proof.
  destruct k as [old [resp|e]|old p]; cbn [answer_of captured].
  - unfold_steps. destruct (json resp) as [data|e].
    + rewrite !no_new_signals_zero_qtd. cbn [middle].
      destruct (zero_qtd data); cbn; rewrite <- !app_assoc; reflexivity.
    + cbn. rewrite <- !app_assoc. reflexivity.
  - unfold_steps. cbn. rewrite <- !app_assoc. reflexivity.
  - unfold_steps. destruct p as [data|e].
    + rewrite !no_new_signals_zero_qtd. cbn [middle].
      destruct (zero_qtd data); cbn; rewrite <- !app_assoc; reflexivity.
    + cbn. rewrite <- !app_assoc. reflexivity.
Qed.

Lemma answer_of_begin (E : env) (old : string) :
  answer_of (AtFetch old (net E endpoint post)) = received E.
Proof. unfold received. cbn. destruct (net E endpoint post); reflexivity. Qed.


Lemma second_settles_first_runs (E1 E2 : env) (b : element) :
  Overlap.from_button (Overlap.second_settles_first E1 E2) b =
    (Return tt,
     {| btn := {| disabled := false; textContent := textContent b |};
        log := opening ++ opening ++
               middle (received E2) ++
               [SetDisabled false; SetTextContent in_progress] ++
               middle (received E1) ++ closing b |}).
Proof.
  unfold Overlap.from_button, Overlap.second_settles_first, Eval.bind.
  rewrite !begin_runs. cbn [btn log textContent].
  rewrite settle_runs. cbn [btn log captured].
  rewrite settle_runs. cbn [btn log captured].
  rewrite !answer_of_begin. unfold closing.
  rewrite <- !app_assoc. reflexivity.
Qed.

Section TwoClicks.
Context (E1 E2 : env) (b : element).


(** X10.  In the same situation, when the second run ends before
    the first, the first run writes last and the button is left enabled
    with the label it had before either click. *)
Theorem nested_failures_restore_label (e1 e2 : exn) :
  received E1 = Throw e1 ->
  received E2 = Throw e2 ->
  fst (Overlap.from_button (Overlap.second_settles_first E1 E2) b) = Return tt /\
  btn (snd (Overlap.from_button (Overlap.second_settles_first E1 E2) b)) =
    {| disabled := false; textContent := textContent b |} /\
  requests (log (snd (Overlap.from_button (Overlap.second_settles_first E1 E2) b))) =
    [(endpoint, post); (endpoint, post)] /\
  alerts (log (snd (Overlap.from_button (Overlap.second_settles_first E1 E2) b))) =
    [failure_msg; failure_msg] /\
  reloads (log (snd (Overlap.from_button (Overlap.second_settles_first E1 E2) b))) = 0.
Proof.
  intros H1 H2. rewrite second_settles_first_runs, H1, H2.
  cbn. auto.
Qed.

End TwoClicks.

(** *** The further properties at work on the samples *)

(** The answer [{"qtd": -0}] is alerted. *)
Lemma alert_exactly_for_zero_minus_zero :
  (alerts (trace Samples.nothing_new Samples.idle) = [no_signals_msg] <->
   exists props sign,
     Samples.qtd_is (VNum Samples.minus_zero) = VObj props /\
     props !! "qtd" = Some (VNum (S754_zero sign))) /\
  (alerts (trace Samples.nothing_new Samples.idle) = [no_signals_msg] \/
   alerts (trace Samples.nothing_new Samples.idle) = []).
Proof.
  apply (alert_exactly_for_zero
           Samples.nothing_new Samples.idle
           (Samples.reply 200 (Return (Samples.qtd_is (VNum Samples.minus_zero))))
           (Samples.qtd_is (VNum Samples.minus_zero)));
    reflexivity.
Defined.

(** [{"qtd": 5}] and [{"qtd": 5, "fonte": "b3", "ok": true}]. *)
Lemma other_fields_are_ignored_chatty :
  ({[ "qtd" := VNum Samples.five ]} : gmap string value) !! "qtd" =
  ({[ "qtd" := VNum Samples.five; "fonte" := VStr "b3"; "ok" := VBool true ]}
     : gmap string value) !! "qtd" /\
  click Samples.five_new Samples.idle = click Scenes.chatty_five_new Samples.idle.
Proof.
  split; [reflexivity|].
  apply (other_fields_are_ignored
           Samples.five_new Scenes.chatty_five_new Samples.idle
           (Samples.reply 200 (Return (Samples.qtd_is (VNum Samples.five))))
           (Samples.reply 200 (Return Scenes.chatty_five))
           {[ "qtd" := VNum Samples.five ]}
           {[ "qtd" := VNum Samples.five; "fonte" := VStr "b3"; "ok" := VBool true ]});
    reflexivity.
Defined.

(** The same click on the button enabled and disabled. *)
Lemma click_ignores_disabled_greyed :
  disabled Samples.idle <> disabled Scenes.greyed /\
  click Samples.nothing_new Samples.idle = click Samples.nothing_new Scenes.greyed.
Proof.
  split; [discriminate|].
  apply (click_ignores_disabled Samples.nothing_new Samples.idle Scenes.greyed).
  reflexivity.
Defined.

(** Offline, then online again. *)
Lemma retry_after_failure_offline :
  received Samples.offline = Throw Samples.failed_to_fetch /\
  reloads (trace Samples.offline Samples.idle) = 0 /\
  trace Samples.five_new (button_after Samples.offline Samples.idle) =
    trace Samples.five_new Samples.idle /\
  requests (trace Samples.five_new (button_after Samples.offline Samples.idle)) =
    [(endpoint, post)] /\
  button_after Samples.five_new (button_after Samples.offline Samples.idle) =
    button_after Samples.offline Samples.idle.
Proof.
  split; [reflexivity|].
  apply (retry_after_failure
           Samples.offline Samples.five_new Samples.idle Samples.failed_to_fetch).
  reflexivity.
Defined.


(** Two clicks while offline, answered in reverse order. *)
Lemma nested_failures_restore_label_offline :
  received Samples.offline = Throw Samples.failed_to_fetch /\
  received Samples.error_page = Throw Samples.bad_json /\
  btn (snd (Overlap.from_button
              (Overlap.second_settles_first Samples.offline Samples.error_page)
              Samples.idle)) =
    {| disabled := false; textContent := textContent Samples.idle |}.
Proof.
  split; [reflexivity|]. split; [reflexivity|].
  apply (nested_failures_restore_label
           Samples.offline Samples.error_page Samples.idle
           Samples.failed_to_fetch Samples.bad_json);
    reflexivity.
Defined.
